(** * Document tools toolbar of the site editor

    A shallow embedding of
    [packages/edit-site/src/components/header-edit-mode/document-tools/index.js]:
    the component [DocumentTools], its two callbacks [toggleInserter] and
    [toggleListView], and the click handler of the zoom-out toggle.

    The component is a function from its props, the registry snapshot read
    by [useSelect], the values of the hooks it calls and the global
    environment to a JSX tree.  Event handlers are closures without
    arguments of interest; they are embedded as the list of effects they
    perform, in program order. *)

From stdpp Require Import base strings gmap list.

(** ** JavaScript values, truthiness and the global [window] *)

Module Js.

(** The values that reach this component.  [obj] is an object or a
    function, known by identity only (the motion parameters and the
    callback ref are passed through untouched). *)
Inductive value :=
| undefined
| null
| boolean (b : bool)
| number (z : Z)
| str (s : string)
| obj (id : N).

(** ToBoolean. *)
Definition truthy (v : value) : bool :=
  match v with
  | undefined | null => false
  | boolean b => b
  | number z => negb (Z.eqb z 0)
  | str s => negb (String.eqb s "")
  | obj _ => true
  end.

(** [a && b] on values: the left operand when it is falsy, else the
    right one. *)
Definition and (a b : value) : value := if truthy a then b else a.

Inductive error :=
| ReferenceError (name : string)
| TypeError.

Inductive result (A : Type) :=
| Ok (a : A)
| Throw (e : error).
Arguments Ok {A} a.
Arguments Throw {A} e.

Definition bind {A B} (m : result A) (k : A -> result B) : result B :=
  match m with
  | Ok a => k a
  | Throw e => Throw e
  end.

(** What the identifier [window] resolves to.  In a browser it is the
    global object; elsewhere the identifier may be bound to a nullish
    value, or not be bound at all. *)
Inductive binding :=
| unresolvable
| nullish (is_null : bool)
| object (props : gmap string value).

(** Evaluating the identifier: an unbound one throws. *)
Definition resolve (name : string) (b : binding) : result binding :=
  match b with
  | unresolvable => Throw (ReferenceError name)
  | _ => Ok b
  end.

(** [base?.key] once [base] is evaluated; a missing property reads as
    [undefined]. *)
Definition optional_get (base : binding) (key : string) : value :=
  match base with
  | object props => default undefined (props !! key)
  | _ => undefined
  end.

End Js.

Notation "x <- m ;; k" := (Js.bind m (fun x => k))
  (at level 100, m at next level, right associativity).

(** ** Collaborators: stores, hooks, props *)

(** State of the edit-site store as seen through the four selectors the
    component calls. *)
Record EditSiteStore := {
  __experimentalGetPreviewDeviceType : string;
  isInserterOpened : bool;
  isListViewOpened : bool;
  getEditorMode : string;
}.

(** The registry passed to the [useSelect] callback.  The selectors
    themselves live in other packages; the flags they return are booleans,
    as in the data model of the specification, and a shortcut
    representation is whatever value the shortcut store holds. *)
Record Registry := {
  editSiteStore : EditSiteStore;
  getShortcutRepresentation : string -> Js.value;
  getPreference : string -> string -> bool;
}.

Definition editSiteStore_name : string := "core/edit-site".

Record ContextualToolbar := {
  shouldShowContextualToolbar : bool;
  canFocusHiddenToolbar : bool;
  fixedToolbarCanBeFocused : bool;
}.

(** Results of the hooks other than [useSelect] and [useDispatch]. *)
Record Hooks := {
  useViewportMatch : string -> bool;
  useShouldContextualToolbarShow : ContextualToolbar;
}.

Record Props := {
  blockEditorMode : string;
  isDistractionFree : bool;
  showIconLabels : bool;
  setListViewToggleElement : Js.value;
  toolbarTransition : Js.value;
  toolbarVariants : Js.value;
}.

Record Global := { window : Js.binding }.

(** ** Effects of the event handlers *)

(** The actions bound by [useDispatch]: the first three belong to the
    edit-site store, the last one to the block-editor store. *)

Inductive Action :=
| setPreviewDeviceType (deviceType : string)
| setIsInserterOpened (value : bool)
| setIsListViewOpened (value : bool)
| __unstableSetEditorMode (mode : string).

Inductive Effect :=
| focus_inserterButton
| dispatch (a : Action)
| event_preventDefault.

Definition preventDefault : list Effect := [event_preventDefault].

(** ** The object returned by the [useSelect] callback *)

Record Selected := {
  deviceType : string;
  isInserterOpen : bool;
  isListViewOpen : bool;
  listViewShortcut : Js.value;
  isVisualMode : bool;
  hasFixedToolbar : bool;
}.

Definition mapSelect (select : Registry) : Selected :=
  let site := editSiteStore select in
  {| deviceType := __experimentalGetPreviewDeviceType site;
     isInserterOpen := isInserterOpened site;
     isListViewOpen := isListViewOpened site;
     listViewShortcut :=
       getShortcutRepresentation select "core/edit-site/toggle-list-view";
     isVisualMode := String.eqb (getEditorMode site) "visual";
     hasFixedToolbar :=
       getPreference select editSiteStore_name "fixedToolbar" |}.

(** ** Callbacks *)

(** [toggleInserter] is reachable only as the click handler of the
    inserter toggle, which holds the ref [inserterButton]: when it runs,
    [inserterButton.current] is that mounted button. *)

Definition toggleInserter (isInserterOpen : bool) : list Effect :=
  if isInserterOpen
  then [focus_inserterButton; dispatch (setIsInserterOpened false)]
  else [dispatch (setIsInserterOpened true)].

Definition toggleListView (isListViewOpen : bool) : list Effect :=
  [dispatch (setIsListViewOpened (negb isListViewOpen))].

Definition zoomOut_onClick (isZoomedOutView : bool) : list Effect :=
  [dispatch (setPreviewDeviceType "Desktop");
   dispatch (__unstableSetEditorMode
               (if isZoomedOutView then "edit" else "zoom-out"))].

(** ** The JSX tree

    Props that only carry an imported component or icon ([as], [icon])
    are constants of the source and are left out of the records. *)

Inductive Ref :=
| inserterButton
| callbackRef (f : Js.value).

Record InserterToggleProps := {
  inserter_ref : Ref;
  inserter_className : string;
  inserter_variant : string;
  inserter_isPressed : bool;
  inserter_onMouseDown : list Effect;
  inserter_onClick : list Effect;
  inserter_disabled : bool;
  inserter_label : string;
  inserter_showTooltip : bool;
  inserter_ariaExpanded : bool;
}.

Record ToolSelectorProps := {
  toolSelector_showTooltip : bool;
  toolSelector_variant : option string;
  toolSelector_disabled : bool;
}.

Record HistoryProps := {
  history_showTooltip : bool;
  history_variant : option string;
}.

Record ListViewToggleProps := {
  listView_className : string;
  listView_disabled : bool;
  listView_isPressed : bool;
  listView_label : string;
  listView_onClick : list Effect;
  listView_ref : Ref;
  listView_shortcut : Js.value;
  listView_showTooltip : bool;
  listView_variant : option string;
  listView_ariaExpanded : bool;
}.

Record ZoomOutToggleProps := {
  zoomOut_className : string;
  zoomOut_isPressed : bool;
  zoomOut_label : string;
  zoomOut_onClick_prop : list Effect;
}.

(** One constructor per [ToolbarItem] of the source, named after what it
    is rendered [as]. *)
Inductive Element :=
| InserterToggle (p : InserterToggleProps)
| ToolSelectorItem (p : ToolSelectorProps)
| UndoItem (p : HistoryProps)
| RedoItem (p : HistoryProps)
| ListViewToggle (p : ListViewToggleProps)
| ZoomOutToggle (p : ZoomOutToggleProps).

(** A child position holds an element, a fragment, or the value a guard
    [c && <X/>] left there when [c] was falsy. *)
#[warnings="-register-all"] Inductive Node :=
| NValue (v : Js.value)
| NElement (e : Element)
| NFragment (children : list Node).

(** [c && node] in a child position. *)
Definition guard (c : Js.value) (n : Node) : Node :=
  if Js.truthy c then n else NValue c.

Record Toolbar := {
  className : string;
  ariaLabel : string;
  shouldUseKeyboardFocusShortcut : bool;
  variants : Js.value;
  transition : Js.value;
  children : list Node;
}.

Fixpoint elements (n : Node) : list Element :=
  match n with
  | NValue _ => []
  | NElement e => [e]
  | NFragment children => flat_map elements children
  end.

(** The toolbar items of a rendered toolbar, in document order. *)
Definition rendered (t : Toolbar) : list Element :=
  flat_map elements (children t).

Definition as_InserterToggle (e : Element) : option InserterToggleProps :=
  match e with InserterToggle p => Some p | _ => None end.
Definition as_ToolSelectorItem (e : Element) : option ToolSelectorProps :=
  match e with ToolSelectorItem p => Some p | _ => None end.
Definition as_UndoItem (e : Element) : option HistoryProps :=
  match e with UndoItem p => Some p | _ => None end.
Definition as_RedoItem (e : Element) : option HistoryProps :=
  match e with RedoItem p => Some p | _ => None end.
Definition as_ListViewToggle (e : Element) : option ListViewToggleProps :=
  match e with ListViewToggle p => Some p | _ => None end.
Definition as_ZoomOutToggle (e : Element) : option ZoomOutToggleProps :=
  match e with ZoomOutToggle p => Some p | _ => None end.

(** The first toolbar item of a given kind, if the toolbar has one. *)
Definition control {A} (kind : Element -> option A) (t : Toolbar) : option A :=
  head (omap kind (rendered t)).

Definition present {A} (kind : Element -> option A) (t : Toolbar) : Prop :=
  is_Some (control kind t).

Definition absent {A} (kind : Element -> option A) (t : Toolbar) : Prop :=
  control kind t = None.

Definition flag_key : string := "__experimentalEnableZoomedOutView".

(** The expression [window?.__experimentalEnableZoomedOutView]: the
    identifier is evaluated first, the optional chain then covers a
    nullish value. *)
Definition window__experimentalEnableZoomedOutView (g : Global)
  : Js.result Js.value :=
  w <- Js.resolve "window" (window g) ;;
  Js.Ok (Js.optional_get w "__experimentalEnableZoomedOutView").

(** ** The component *)

Section Component.

(** [__] and [_x] of the i18n package. *)
Variable __ : string -> string.
Variable _x : string -> string -> string.

Definition tertiary_if (showIconLabels : bool) : option string :=
  if showIconLabels then Some "tertiary" else None.

Definition DocumentTools (g : Global) (hooks : Hooks) (select : Registry)
    (props : Props) : Js.result Toolbar :=
  let '{| isInserterOpen := isInserterOpen;
          isListViewOpen := isListViewOpen;
          listViewShortcut := listViewShortcut;
          isVisualMode := isVisualMode;
          hasFixedToolbar := hasFixedToolbar |} := mapSelect select in
  let isLargeViewport := useViewportMatch hooks "medium" in
  let '{| shouldShowContextualToolbar := shouldShowContextualToolbar;
          canFocusHiddenToolbar := canFocusHiddenToolbar;
          fixedToolbarCanBeFocused := fixedToolbarCanBeFocused |} :=
    useShouldContextualToolbarShow hooks in
  let blockToolbarCanBeFocused :=
    shouldShowContextualToolbar
    || canFocusHiddenToolbar
    || fixedToolbarCanBeFocused in
  let longLabel :=
    _x "Toggle block inserter" "Generic label for block inserter button" in
  let shortLabel := if negb isInserterOpen then __ "Add" else __ "Close" in
  flag <- window__experimentalEnableZoomedOutView g ;;
  let isZoomedOutViewExperimentEnabled :=
    Js.and flag (Js.boolean isVisualMode) in
  let isZoomedOutView := String.eqb (blockEditorMode props) "zoom-out" in
  Js.Ok
    {| className := "edit-site-header-edit-mode__start";
       ariaLabel := __ "Document tools";
       shouldUseKeyboardFocusShortcut := negb blockToolbarCanBeFocused;
       variants := toolbarVariants props;
       transition := toolbarTransition props;
       children :=
         [ guard (Js.boolean (negb (isDistractionFree props)))
             (NElement (InserterToggle
                {| inserter_ref := inserterButton;
                   inserter_className :=
                     "edit-site-header-edit-mode__inserter-toggle";
                   inserter_variant := "primary";
                   inserter_isPressed := isInserterOpen;
                   inserter_onMouseDown := preventDefault;
                   inserter_onClick := toggleInserter isInserterOpen;
                   inserter_disabled := negb isVisualMode;
                   inserter_label :=
                     if showIconLabels props then shortLabel else longLabel;
                   inserter_showTooltip := negb (showIconLabels props);
                   inserter_ariaExpanded := isInserterOpen |}));
           guard (Js.boolean isLargeViewport)
             (NFragment
                [ guard (Js.boolean (negb hasFixedToolbar))
                    (NElement (ToolSelectorItem
                       {| toolSelector_showTooltip :=
                            negb (showIconLabels props);
                          toolSelector_variant :=
                            tertiary_if (showIconLabels props);
                          toolSelector_disabled := negb isVisualMode |}));
                  NElement (UndoItem
                    {| history_showTooltip := negb (showIconLabels props);
                       history_variant :=
                         tertiary_if (showIconLabels props) |});
                  NElement (RedoItem
                    {| history_showTooltip := negb (showIconLabels props);
                       history_variant :=
                         tertiary_if (showIconLabels props) |});
                  guard (Js.boolean (negb (isDistractionFree props)))
                    (NElement (ListViewToggle
                       {| listView_className :=
                            "edit-site-header-edit-mode__list-view-toggle";
                          listView_disabled :=
                            negb isVisualMode || isZoomedOutView;
                          listView_isPressed := isListViewOpen;
                          listView_label := __ "List View";
                          listView_onClick := toggleListView isListViewOpen;
                          listView_ref :=
                            callbackRef (setListViewToggleElement props);
                          listView_shortcut := listViewShortcut;
                          listView_showTooltip :=
                            negb (showIconLabels props);
                          listView_variant :=
                            tertiary_if (showIconLabels props);
                          listView_ariaExpanded := isListViewOpen |}));
                  guard
                    (Js.and
                       (Js.and isZoomedOutViewExperimentEnabled
                          (Js.boolean (negb (isDistractionFree props))))
                       (Js.boolean (negb hasFixedToolbar)))
                    (NElement (ZoomOutToggle
                       {| zoomOut_className :=
                            "edit-site-header-edit-mode__zoom-out-view-toggle";
                          zoomOut_isPressed := isZoomedOutView;
                          zoomOut_label := __ "Zoom-out View";
                          zoomOut_onClick_prop :=
                            zoomOut_onClick isZoomedOutView |})) ]) ] |}.

End Component.

(** ** The stores behind the dispatched actions *)

(** Modelled from the spec: the reducers of the edit-site and block-editor
    stores and the focus manager live outside this file.  The spec lists
    the write actions (open/close inserter, open/close list view, set
    editor mode, set preview device type) as synchronous state
    transitions that cannot fail; each one is taken to overwrite the
    field its selector reads.  [activeElement] records where the last
    [focus()] call went. *)
Record Page := {
  site : EditSiteStore;
  blockEditor_editorMode : string;
  activeElement : option Ref;
}.

(** Modelled from the spec: the reducers are not in this file; each write
    action overwrites the one field its selector reads. *)
Definition reduce (a : Action) (pg : Page) : Page :=
  let s := site pg in
  match a with
  | setPreviewDeviceType d =>
      {| site := {| __experimentalGetPreviewDeviceType := d;
                    isInserterOpened := isInserterOpened s;
                    isListViewOpened := isListViewOpened s;
                    getEditorMode := getEditorMode s |};
         blockEditor_editorMode := blockEditor_editorMode pg;
         activeElement := activeElement pg |}
  | setIsInserterOpened v =>
      {| site := {| __experimentalGetPreviewDeviceType :=
                      __experimentalGetPreviewDeviceType s;
                    isInserterOpened := v;
                    isListViewOpened := isListViewOpened s;
                    getEditorMode := getEditorMode s |};
         blockEditor_editorMode := blockEditor_editorMode pg;
         activeElement := activeElement pg |}
  | setIsListViewOpened v =>
      {| site := {| __experimentalGetPreviewDeviceType :=
                      __experimentalGetPreviewDeviceType s;
                    isInserterOpened := isInserterOpened s;
                    isListViewOpened := v;
                    getEditorMode := getEditorMode s |};
         blockEditor_editorMode := blockEditor_editorMode pg;
         activeElement := activeElement pg |}
  | __unstableSetEditorMode m =>
      {| site := s;
         blockEditor_editorMode := m;
         activeElement := activeElement pg |}
  end.

(** Modelled from the spec: [focus()] moves keyboard focus to the inserter
    button and [preventDefault()] leaves the stores alone. *)
Definition perform (pg : Page) (e : Effect) : Page :=
  match e with
  | focus_inserterButton =>
      {| site := site pg;
         blockEditor_editorMode := blockEditor_editorMode pg;
         activeElement := Some inserterButton |}
  | dispatch a => reduce a pg
  | event_preventDefault => pg
  end.

(** Running a handler: its effects, in order. *)
Definition run (es : list Effect) (pg : Page) : Page :=
  fold_left perform es pg.

(** A click on the inserter toggle or on the list-view toggle runs the
    callback built by the render that read the current store state. *)
Definition click_inserterToggle (pg : Page) : Page :=
  run (toggleInserter (isInserterOpened (site pg))) pg.


(** ** Reading effect lists *)

Definition is_focus (e : Effect) : bool :=
  match e with focus_inserterButton => true | _ => false end.

Definition focus_moves (es : list Effect) : nat :=
  length (List.filter is_focus es).



(** The global flag is undefined, or there is no global object to read it
    from. *)
Definition flag_missing (g : Global) : Prop :=
  match window g with
  | Js.unresolvable => True
  | Js.nullish _ => True
  | Js.object props => default Js.undefined (props !! flag_key) = Js.undefined
  end.

(** Two registries that agree on everything but the preview device type. *)
Definition differ_only_in_deviceType (s1 s2 : Registry) : Prop :=
  isInserterOpened (editSiteStore s1) = isInserterOpened (editSiteStore s2)
  /\ isListViewOpened (editSiteStore s1) = isListViewOpened (editSiteStore s2)
  /\ getEditorMode (editSiteStore s1) = getEditorMode (editSiteStore s2)
  /\ getShortcutRepresentation s1 = getShortcutRepresentation s2
  /\ getPreference s1 = getPreference s2.

(** The experiment is switched on when the global flag reads as a truthy
    value. *)
Definition experiment_enabled (g : Global) : Prop :=
  exists v, window__experimentalEnableZoomedOutView g = Js.Ok v
            /\ Js.truthy v = true.

(** ** Inputs used to exercise the component *)

(** A browser whose [window] carries the experiment flag. *)
Definition browser_with_flag (v : Js.value) : Global :=
  {| window := Js.object {[ flag_key := v ]} |}.

(** A browser whose [window] has no such property. *)
Definition browser_without_flag : Global := {| window := Js.object ∅ |}.

(** An environment where [window] is bound to [undefined]. *)
Definition window_is_undefined : Global := {| window := Js.nullish false |}.

(** An environment with no [window] binding. *)
Definition no_window : Global := {| window := Js.unresolvable |}.

Definition hooks_with (large : bool) (ctx : ContextualToolbar) : Hooks :=
  {| useViewportMatch := fun _ => large;
     useShouldContextualToolbarShow := ctx |}.

Definition no_block_toolbar : ContextualToolbar :=
  {| shouldShowContextualToolbar := false;
     canFocusHiddenToolbar := false;
     fixedToolbarCanBeFocused := false |}.

Definition registry_with (device mode : string) (inserter listview fixed : bool)
  : Registry :=
  {| editSiteStore :=
       {| __experimentalGetPreviewDeviceType := device;
          isInserterOpened := inserter;
          isListViewOpened := listview;
          getEditorMode := mode |};
     getShortcutRepresentation := fun _ => Js.str "Shift+Alt+O";
     getPreference := fun _ _ => fixed |}.

Definition props_with (mode : string) (distractionFree iconLabels : bool)
  : Props :=
  {| blockEditorMode := mode;
     isDistractionFree := distractionFree;
     showIconLabels := iconLabels;
     setListViewToggleElement := Js.obj 1;
     toolbarTransition := Js.obj 2;
     toolbarVariants := Js.obj 3 |}.

Definition page_with (inserter listview : bool) : Page :=
  {| site := {| __experimentalGetPreviewDeviceType := "Tablet";
                isInserterOpened := inserter;
                isListViewOpened := listview;
                getEditorMode := "visual" |};
     blockEditor_editorMode := "edit";
     activeElement := None |}.

Definition flag_on : Global := browser_with_flag (Js.boolean true).
Definition flag_off : Global := browser_with_flag (Js.boolean false).

Definition large_viewport : Hooks := hooks_with true no_block_toolbar.
Definition small_viewport : Hooks := hooks_with false no_block_toolbar.

Definition visual_editor : Registry :=
  registry_with "Tablet" "visual" true true false.
Definition text_editor : Registry :=
  registry_with "Tablet" "text" false false false.

Definition plain_props : Props := props_with "edit" false false.
Definition zoomed_out_props : Props := props_with "zoom-out" false false.
Definition distraction_free_props : Props := props_with "edit" true false.

Definition untranslated (text : string) : string := text.
Definition untranslated_x (text context : string) : string := text.

Definition render_untranslated : Global -> Hooks -> Registry -> Props ->
    Js.result Toolbar :=
  DocumentTools untranslated untranslated_x.

(** The items of a render by name, in document order. *)
Definition item_name (e : Element) : string :=
  match e with
  | InserterToggle _ => "inserter-toggle"
  | ToolSelectorItem _ => "tool-selector"
  | UndoItem _ => "undo"
  | RedoItem _ => "redo"
  | ListViewToggle _ => "list-view-toggle"
  | ZoomOutToggle _ => "zoom-out-view-toggle"
  end.

Definition outline (r : Js.result Toolbar) : Js.result (list string) :=
  t <- r ;; Js.Ok (map item_name (rendered t)).

(** ** Further readings of a render *)

(** The names of the rendered items, in document order. *)
Definition item_names (t : Toolbar) : list string :=
  map item_name (rendered t).

(** The six items of the source, in the order they are written. *)
Definition all_item_names : list string :=
  ["inserter-toggle"; "tool-selector"; "undo"; "redo";
   "list-view-toggle"; "zoom-out-view-toggle"].

(** The event handlers an item carries. *)
Definition handlers (e : Element) : list (list Effect) :=
  match e with
  | InserterToggle p => [inserter_onMouseDown p; inserter_onClick p]
  | ListViewToggle p => [listView_onClick p]
  | ZoomOutToggle p => [zoomOut_onClick_prop p]
  | ToolSelectorItem _ | UndoItem _ | RedoItem _ => []
  end.

(** Every effect some handler of the toolbar can perform. *)
Definition all_effects (t : Toolbar) : list Effect :=
  concat (flat_map handlers (rendered t)).

Definition as_dispatch (e : Effect) : option Action :=
  match e with dispatch a => Some a | _ => None end.

Definition dispatched (es : list Effect) : list Action := omap as_dispatch es.

Definition as_editorMode (a : Action) : option string :=
  match a with __unstableSetEditorMode m => Some m | _ => None end.

(** The block-editor mode a handler asks for, if it asks for one. *)
Definition dispatched_editorMode (es : list Effect) : option string :=
  last (omap as_editorMode (dispatched es)).

(** The actions this component has a reason to dispatch, given the flags
    the render read from the edit-site store. *)
Definition expected_action (reg : Registry) (a : Action) : Prop :=
  match a with
  | setPreviewDeviceType d => d = "Desktop"
  | setIsInserterOpened v => v = negb (isInserterOpened (editSiteStore reg))
  | setIsListViewOpened v => v = negb (isListViewOpened (editSiteStore reg))
  | __unstableSetEditorMode m => m = "edit" \/ m = "zoom-out"
  end.

(** Two sets of hook results and registries on which every read of the
    component gives the same answer. *)
Definition same_reads (h1 h2 : Hooks) (r1 r2 : Registry) : Prop :=
  useViewportMatch h1 "medium" = useViewportMatch h2 "medium"
  /\ useShouldContextualToolbarShow h1 = useShouldContextualToolbarShow h2
  /\ isInserterOpened (editSiteStore r1) = isInserterOpened (editSiteStore r2)
  /\ isListViewOpened (editSiteStore r1) = isListViewOpened (editSiteStore r2)
  /\ (getEditorMode (editSiteStore r1) = "visual"
      <-> getEditorMode (editSiteStore r2) = "visual")
  /\ getShortcutRepresentation r1 "core/edit-site/toggle-list-view"
     = getShortcutRepresentation r2 "core/edit-site/toggle-list-view"
  /\ getPreference r1 "core/edit-site" "fixedToolbar"
     = getPreference r2 "core/edit-site" "fixedToolbar".

(** Two global environments and props on which every read of the
    component gives the same answer. *)
Definition same_inputs (g1 g2 : Global) (p1 p2 : Props) : Prop :=
  (window g1 = Js.unresolvable <-> window g2 = Js.unresolvable)
  /\ Js.optional_get (window g1) flag_key = Js.optional_get (window g2) flag_key
  /\ (blockEditorMode p1 = "zoom-out" <-> blockEditorMode p2 = "zoom-out")
  /\ isDistractionFree p1 = isDistractionFree p2
  /\ showIconLabels p1 = showIconLabels p2
  /\ setListViewToggleElement p1 = setListViewToggleElement p2
  /\ toolbarTransition p1 = toolbarTransition p2
  /\ toolbarVariants p1 = toolbarVariants p2.

(** The [disabled] prop an item is given; undo, redo and the zoom-out
    toggle are given none. *)
Definition is_disabled (e : Element) : bool :=
  match e with
  | InserterToggle p => inserter_disabled p
  | ToolSelectorItem p => toolSelector_disabled p
  | ListViewToggle p => listView_disabled p
  | UndoItem _ | RedoItem _ | ZoomOutToggle _ => false
  end.

(** The names of the rendered items that are not disabled. *)
Definition enabled_item_names (t : Toolbar) : list string :=
  map item_name (List.filter (fun e => negb (is_disabled e)) (rendered t)).

(** How the icon-labels preference styles an item. *)
Definition styled_for (iconLabels : bool) (e : Element) : Prop :=
  match e with
  | InserterToggle p =>
      inserter_showTooltip p = negb iconLabels
      /\ inserter_variant p = "primary"
  | ToolSelectorItem p =>
      toolSelector_showTooltip p = negb iconLabels
      /\ toolSelector_variant p
         = (if iconLabels then Some "tertiary" else None)
  | UndoItem p | RedoItem p =>
      history_showTooltip p = negb iconLabels
      /\ history_variant p = (if iconLabels then Some "tertiary" else None)
  | ListViewToggle p =>
      listView_showTooltip p = negb iconLabels
      /\ listView_variant p = (if iconLabels then Some "tertiary" else None)
  | ZoomOutToggle _ => True
  end.

(** A toggle's click asks for the opposite of the pressed state the
    toggle shows. *)
Definition click_matches_pressed (e : Element) : Prop :=
  match e with
  | InserterToggle p =>
      dispatched (inserter_onClick p)
      = [setIsInserterOpened (negb (inserter_isPressed p))]
  | ListViewToggle p =>
      dispatched (listView_onClick p)
      = [setIsListViewOpened (negb (listView_isPressed p))]
  | ZoomOutToggle p =>
      dispatched_editorMode (zoomOut_onClick_prop p)
      = Some (if zoomOut_isPressed p then "edit" else "zoom-out")
  | ToolSelectorItem _ | UndoItem _ | RedoItem _ => True
  end.

(** More inputs: a flag holding a number, a viewport hook that matches
    only "medium", a registry in another non-visual mode whose stores
    answer other keys differently, and props in navigation mode. *)
Definition flag_zero : Global := browser_with_flag (Js.number 0).
Definition flag_one : Global := browser_with_flag (Js.number 1).
Definition flag_undefined : Global := browser_with_flag Js.undefined.

Definition medium_only : Hooks :=
  {| useViewportMatch := fun breakpoint => String.eqb breakpoint "medium";
     useShouldContextualToolbarShow := no_block_toolbar |}.

Definition code_editor : Registry :=
  {| editSiteStore :=
       {| __experimentalGetPreviewDeviceType := "Mobile";
          isInserterOpened := false;
          isListViewOpened := false;
          getEditorMode := "code" |};
     getShortcutRepresentation :=
       fun name =>
         if String.eqb name "core/edit-site/toggle-list-view"
         then Js.str "Shift+Alt+O" else Js.null;
     getPreference :=
       fun scope name => negb (String.eqb name "fixedToolbar") |}.

Definition navigation_props : Props := props_with "navigation" false false.
Definition icon_label_props : Props := props_with "edit" false true.

(** * Properties *)

(** Case analysis on everything a render branches on. *)
Ltac render_cases H hk reg pr :=
  let flag := fresh "flag" in
  let F := fresh "F" in
  let Et := fresh "Et" in
  destruct hk as [vm [a b c]];
  destruct reg as [[d io lo m] sh pref];
  destruct pr as [bm df il r tt tv];
  unfold DocumentTools in H;
  destruct (window__experimentalEnableZoomedOutView _) as [flag|] eqn:F;
  cbn in H; [|discriminate H];
  injection H as <-;
  unfold control, rendered, guard, Js.and; cbn;
  destruct (Js.truthy flag) eqn:Et, df, (vm "medium"),
    (pref editSiteStore_name "fixedToolbar"), (m =? "visual")%string;
  cbn; rewrite ?Et; cbn.

Section Properties.

Context (__ : string -> string) (_x : string -> string -> string).

(** *** What a render returns *)

Lemma flag_of_bound_window g :
  window g <> Js.unresolvable ->
  window__experimentalEnableZoomedOutView g =
    Js.Ok (Js.optional_get (window g) flag_key).
Proof.
  unfold window__experimentalEnableZoomedOutView.
  destruct (window g); [congruence | reflexivity | reflexivity].
Qed.

Lemma flag_of_unbound_window g :
  window g = Js.unresolvable ->
  window__experimentalEnableZoomedOutView g =
    Js.Throw (Js.ReferenceError "window").
Proof.
  unfold window__experimentalEnableZoomedOutView. intros ->. reflexivity.
Qed.

Lemma render_returns g hooks reg props flag :
  window__experimentalEnableZoomedOutView g = Js.Ok flag ->
  exists out, DocumentTools __ _x g hooks reg props = Js.Ok out.
Proof.
  intros F. unfold DocumentTools. rewrite F.
  destruct (mapSelect reg), (useShouldContextualToolbarShow hooks).
  cbn. eexists. reflexivity.
Qed.

Lemma render_throws g hooks reg props :
  window g = Js.unresolvable ->
  DocumentTools __ _x g hooks reg props = Js.Throw (Js.ReferenceError "window").
Proof.
  intros W. unfold DocumentTools.
  rewrite (flag_of_unbound_window g W).
  destruct (mapSelect reg), (useShouldContextualToolbarShow hooks).
  reflexivity.
Qed.

Lemma render_read_flag g hooks reg props out :
  DocumentTools __ _x g hooks reg props = Js.Ok out ->
  exists flag, window__experimentalEnableZoomedOutView g = Js.Ok flag.
Proof.
  intros H. unfold DocumentTools in H.
  destruct (window__experimentalEnableZoomedOutView g) as [flag|e] eqn:F.
  - exists flag. reflexivity.
  - destruct (mapSelect reg), (useShouldContextualToolbarShow hooks).
    discriminate H.
Qed.

(** *** The toolbar items, one by one *)

Lemma control_inserterToggle g hooks reg props out :
  DocumentTools __ _x g hooks reg props = Js.Ok out ->
  control as_InserterToggle out =
    if negb (isDistractionFree props)
    then Some
      {| inserter_ref := inserterButton;
         inserter_className := "edit-site-header-edit-mode__inserter-toggle";
         inserter_variant := "primary";
         inserter_isPressed := isInserterOpened (editSiteStore reg);
         inserter_onMouseDown := preventDefault;
         inserter_onClick :=
           toggleInserter (isInserterOpened (editSiteStore reg));
         inserter_disabled := negb (isVisualMode (mapSelect reg));
         inserter_label :=
           if showIconLabels props
           then (if negb (isInserterOpened (editSiteStore reg))
                 then __ "Add" else __ "Close")
           else _x "Toggle block inserter"
                   "Generic label for block inserter button";
         inserter_showTooltip := negb (showIconLabels props);
         inserter_ariaExpanded := isInserterOpened (editSiteStore reg) |}
    else None.
Proof. intros H. render_cases H hooks reg props; reflexivity. Qed.

Lemma control_toolSelector g hooks reg props out :
  DocumentTools __ _x g hooks reg props = Js.Ok out ->
  control as_ToolSelectorItem out =
    if useViewportMatch hooks "medium"
       && negb (hasFixedToolbar (mapSelect reg))
    then Some
      {| toolSelector_showTooltip := negb (showIconLabels props);
         toolSelector_variant := tertiary_if (showIconLabels props);
         toolSelector_disabled := negb (isVisualMode (mapSelect reg)) |}
    else None.
Proof. intros H. render_cases H hooks reg props; reflexivity. Qed.

Lemma control_undo g hooks reg props out :
  DocumentTools __ _x g hooks reg props = Js.Ok out ->
  control as_UndoItem out =
    if useViewportMatch hooks "medium"
    then Some {| history_showTooltip := negb (showIconLabels props);
                 history_variant := tertiary_if (showIconLabels props) |}
    else None.
Proof. intros H. render_cases H hooks reg props; reflexivity. Qed.

Lemma control_redo g hooks reg props out :
  DocumentTools __ _x g hooks reg props = Js.Ok out ->
  control as_RedoItem out =
    if useViewportMatch hooks "medium"
    then Some {| history_showTooltip := negb (showIconLabels props);
                 history_variant := tertiary_if (showIconLabels props) |}
    else None.
Proof. intros H. render_cases H hooks reg props; reflexivity. Qed.

Lemma control_listViewToggle g hooks reg props out :
  DocumentTools __ _x g hooks reg props = Js.Ok out ->
  control as_ListViewToggle out =
    if useViewportMatch hooks "medium" && negb (isDistractionFree props)
    then Some
      {| listView_className := "edit-site-header-edit-mode__list-view-toggle";
         listView_disabled :=
           negb (isVisualMode (mapSelect reg))
           || String.eqb (blockEditorMode props) "zoom-out";
         listView_isPressed := isListViewOpened (editSiteStore reg);
         listView_label := __ "List View";
         listView_onClick :=
           toggleListView (isListViewOpened (editSiteStore reg));
         listView_ref := callbackRef (setListViewToggleElement props);
         listView_shortcut :=
           getShortcutRepresentation reg "core/edit-site/toggle-list-view";
         listView_showTooltip := negb (showIconLabels props);
         listView_variant := tertiary_if (showIconLabels props);
         listView_ariaExpanded := isListViewOpened (editSiteStore reg) |}
    else None.
Proof. intros H. render_cases H hooks reg props; reflexivity. Qed.

Lemma control_zoomOutToggle g hooks reg props out flag :
  DocumentTools __ _x g hooks reg props = Js.Ok out ->
  window__experimentalEnableZoomedOutView g = Js.Ok flag ->
  control as_ZoomOutToggle out =
    if useViewportMatch hooks "medium"
       && Js.truthy flag
       && isVisualMode (mapSelect reg)
       && negb (isDistractionFree props)
       && negb (hasFixedToolbar (mapSelect reg))
    then Some
      {| zoomOut_className :=
           "edit-site-header-edit-mode__zoom-out-view-toggle";
         zoomOut_isPressed := String.eqb (blockEditorMode props) "zoom-out";
         zoomOut_label := __ "Zoom-out View";
         zoomOut_onClick_prop :=
           zoomOut_onClick (String.eqb (blockEditorMode props) "zoom-out") |}
    else None.
Proof.
  intros H F'. render_cases H hooks reg props;
    injection F' as <-; rewrite ?Et; reflexivity.
Qed.

Lemma render_focus_shortcut g hooks reg props out :
  DocumentTools __ _x g hooks reg props = Js.Ok out ->
  shouldUseKeyboardFocusShortcut out =
    negb (shouldShowContextualToolbar (useShouldContextualToolbarShow hooks)
          || canFocusHiddenToolbar (useShouldContextualToolbarShow hooks)
          || fixedToolbarCanBeFocused (useShouldContextualToolbarShow hooks)).
Proof. intros H. render_cases H hooks reg props; reflexivity. Qed.



(** *** Which controls are rendered *)

(** C1, amended: the zoom-out toggle is rendered exactly when the
    viewport is large, the global experiment flag is truthy, the editor
    is in visual mode, distraction-free mode is off and the fixed
    toolbar preference is off.  Visual mode is part of the condition:
    [isZoomedOutViewExperimentEnabled] is the flag [&&] [isVisualMode]. *)
Theorem zoomOut_toggle_present_iff g hooks reg props out :
  DocumentTools __ _x g hooks reg props = Js.Ok out ->
  present as_ZoomOutToggle out <->
    useViewportMatch hooks "medium" = true
    /\ experiment_enabled g
    /\ isVisualMode (mapSelect reg) = true
    /\ isDistractionFree props = false
    /\ hasFixedToolbar (mapSelect reg) = false.
Proof.
  intros H. destruct (render_read_flag _ _ _ _ _ H) as [flag F].
  unfold present, experiment_enabled.
  rewrite (control_zoomOutToggle _ _ _ _ _ _ H F), F.
  destruct (useViewportMatch hooks "medium"), (Js.truthy flag) eqn:T,
    (isVisualMode (mapSelect reg)), (isDistractionFree props),
    (hasFixedToolbar (mapSelect reg)); cbn; split;
    try (intros [? ?]; discriminate);
    try (intros (? & (v & [= <-] & ?) & ? & ? & ?); congruence).
  - intros _. repeat split. exists flag. split; [reflexivity | assumption].
  - intros _. eexists. reflexivity.
Qed.

(** C4: in distraction-free mode the inserter toggle, the list-view
    toggle and the zoom-out toggle are not rendered, whatever the other
    inputs are. *)
Theorem distraction_free_hides_toggles g hooks reg props out :
  DocumentTools __ _x g hooks reg props = Js.Ok out ->
  isDistractionFree props = true ->
  absent as_InserterToggle out
  /\ absent as_ListViewToggle out
  /\ absent as_ZoomOutToggle out.
Proof.
  intros H DF. destruct (render_read_flag _ _ _ _ _ H) as [flag F].
  unfold absent.
  rewrite (control_inserterToggle _ _ _ _ _ H),
    (control_listViewToggle _ _ _ _ _ H),
    (control_zoomOutToggle _ _ _ _ _ _ H F), DF.
  destruct (useViewportMatch hooks "medium"), (Js.truthy flag),
    (isVisualMode (mapSelect reg)), (hasFixedToolbar (mapSelect reg));
    cbn; auto.
Qed.

(** C5: wherever [window] is bound the render returns a toolbar, and in
    it: on a viewport that is not large the tool selector, undo, redo,
    the list-view toggle and the zoom-out toggle are not rendered; on a
    large viewport undo and redo are rendered, whatever the editor mode,
    the distraction-free flag and the fixed-toolbar preference are. *)
Theorem viewport_gates_controls g hooks reg props :
  window g <> Js.unresolvable ->
  exists out,
    DocumentTools __ _x g hooks reg props = Js.Ok out
    /\ if useViewportMatch hooks "medium"
       then present as_UndoItem out /\ present as_RedoItem out
       else absent as_ToolSelectorItem out
            /\ absent as_UndoItem out
            /\ absent as_RedoItem out
            /\ absent as_ListViewToggle out
            /\ absent as_ZoomOutToggle out.
Proof.
  intros W. pose proof (flag_of_bound_window g W) as F.
  destruct (render_returns g hooks reg props _ F) as [out H].
  exists out. split; [exact H|].
  unfold absent, present.
  rewrite (control_toolSelector _ _ _ _ _ H), (control_undo _ _ _ _ _ H),
    (control_redo _ _ _ _ _ H), (control_listViewToggle _ _ _ _ _ H),
    (control_zoomOutToggle _ _ _ _ _ _ H F).
  destruct (useViewportMatch hooks "medium"); cbn.
  - split; eexists; reflexivity.
  - repeat split.
Qed.

(** C6: a rendered list-view toggle is disabled exactly when the editor
    is not in visual mode or the block editor is zoomed out, and its
    [aria-expanded] is the store's list-view-open flag. *)
Theorem listView_toggle_disabled_iff g hooks reg props out btn :
  DocumentTools __ _x g hooks reg props = Js.Ok out ->
  control as_ListViewToggle out = Some btn ->
  (listView_disabled btn = true <->
     isVisualMode (mapSelect reg) = false
     \/ blockEditorMode props = "zoom-out")
  /\ listView_ariaExpanded btn = isListViewOpened (editSiteStore reg).
Proof.
  intros H C. rewrite (control_listViewToggle _ _ _ _ _ H) in C.
  destruct (_ && _); [|discriminate C]. injection C as <-. cbn.
  split; [|reflexivity].
  rewrite orb_true_iff, negb_true_iff, String.eqb_eq. reflexivity.
Qed.

(** C8: the toolbar's keyboard-focus shortcut is enabled exactly when
    none of the three contextual-toolbar capabilities holds. *)
Theorem focus_shortcut_enabled_iff g hooks reg props out :
  DocumentTools __ _x g hooks reg props = Js.Ok out ->
  shouldUseKeyboardFocusShortcut out = true <->
    shouldShowContextualToolbar (useShouldContextualToolbarShow hooks) = false
    /\ canFocusHiddenToolbar (useShouldContextualToolbarShow hooks) = false
    /\ fixedToolbarCanBeFocused (useShouldContextualToolbarShow hooks) = false.
Proof.
  intros H. rewrite (render_focus_shortcut _ _ _ _ _ H).
  rewrite negb_true_iff, !orb_false_iff. tauto.
Qed.

(** *** What the handlers do *)






(** *** The global flag *)

(** C9, amended: when [window] is bound and the experiment flag is
    undefined (the property is missing or undefined, or [window] itself
    holds undefined or null), the render returns without an error, the
    zoom-out toggle is not rendered, and the toolbar items are those
    rendered when the flag is [false]. *)
Theorem missing_flag_hides_zoomOut_toggle g hooks reg props :
  window g <> Js.unresolvable ->
  flag_missing g ->
  exists out out_off,
    DocumentTools __ _x g hooks reg props = Js.Ok out
    /\ absent as_ZoomOutToggle out
    /\ DocumentTools __ _x flag_off hooks reg props = Js.Ok out_off
    /\ rendered out = rendered out_off.
Proof.
  intros W M.
  assert (F : window__experimentalEnableZoomedOutView g = Js.Ok Js.undefined).
  { rewrite (flag_of_bound_window g W). f_equal.
    unfold flag_missing in M. destruct (window g); [congruence|reflexivity|].
    exact M. }
  assert (F' : window__experimentalEnableZoomedOutView flag_off
               = Js.Ok (Js.boolean false)) by reflexivity.
  destruct (render_returns g hooks reg props _ F) as [out H].
  destruct (render_returns flag_off hooks reg props _ F') as [out' H'].
  exists out, out'. split; [exact H|]. split; [|split; [exact H'|]].
  - unfold absent. rewrite (control_zoomOutToggle _ _ _ _ _ _ H F). cbn.
    rewrite andb_false_r. reflexivity.
  - clear W M. unfold DocumentTools in H, H'. rewrite F in H. rewrite F' in H'.
    destruct hooks as [vm [a b c]], reg as [[d io lo m] sh pref],
      props as [bm df il r tt tv].
    cbn in H, H'. injection H as <-. injection H' as <-.
    unfold rendered, guard, Js.and; cbn.
    destruct df, (vm "medium"), (pref editSiteStore_name "fixedToolbar");
      reflexivity.
Qed.

(** *** The preview device type *)

(** C10: two registries that differ only in the preview device type give
    the same result: the same toolbar, handlers included, or the same
    error. *)
Theorem deviceType_not_observed g hooks reg1 reg2 props :
  differ_only_in_deviceType reg1 reg2 ->
  DocumentTools __ _x g hooks reg1 props = DocumentTools __ _x g hooks reg2 props.
Proof.
  destruct reg1 as [[d1 io1 lo1 m1] sh1 pref1],
    reg2 as [[d2 io2 lo2 m2] sh2 pref2].
  unfold differ_only_in_deviceType. cbn.
  intros (-> & -> & -> & -> & ->). reflexivity.
Qed.

End Properties.

(** * The properties at concrete inputs *)

Example outline_everything :
  outline (render_untranslated flag_on large_viewport visual_editor plain_props)
  = Js.Ok ["inserter-toggle"; "tool-selector"; "undo"; "redo";
           "list-view-toggle"; "zoom-out-view-toggle"].
Proof. vm_compute. reflexivity. Qed.

Example outline_text_mode :
  outline (render_untranslated flag_on large_viewport text_editor plain_props)
  = Js.Ok ["inserter-toggle"; "tool-selector"; "undo"; "redo";
           "list-view-toggle"].
Proof. vm_compute. reflexivity. Qed.

Example outline_small_viewport :
  outline (render_untranslated flag_on small_viewport visual_editor plain_props)
  = Js.Ok ["inserter-toggle"].
Proof. vm_compute. reflexivity. Qed.

Example outline_distraction_free :
  outline (render_untranslated flag_on large_viewport visual_editor
             distraction_free_props)
  = Js.Ok ["tool-selector"; "undo"; "redo"].
Proof. vm_compute. reflexivity. Qed.

Example outline_window_undefined :
  outline (render_untranslated window_is_undefined large_viewport
             visual_editor plain_props)
  = Js.Ok ["inserter-toggle"; "tool-selector"; "undo"; "redo";
           "list-view-toggle"].
Proof. vm_compute. reflexivity. Qed.

Example outline_flag_not_set :
  outline (render_untranslated browser_without_flag large_viewport
             visual_editor plain_props)
  = Js.Ok ["inserter-toggle"; "tool-selector"; "undo"; "redo";
           "list-view-toggle"].
Proof. vm_compute. reflexivity. Qed.

Example outline_no_window :
  outline (render_untranslated no_window large_viewport visual_editor
             plain_props)
  = Js.Throw (Js.ReferenceError "window").
Proof. vm_compute. reflexivity. Qed.

Example click_inserter_open :
  activeElement (click_inserterToggle (page_with true false))
  = Some inserterButton
  /\ isInserterOpened (site (click_inserterToggle (page_with true false)))
     = false.
Proof. split; reflexivity. Qed.

(** C1, as stated, fails: with a large viewport, the experiment flag set,
    distraction-free mode off and the fixed toolbar off, the zoom-out
    toggle is still not rendered while the editor is in text mode. *)
Lemma zoomOut_toggle_needs_visual_mode :
  exists out,
    render_untranslated flag_on large_viewport text_editor plain_props
      = Js.Ok out
    /\ ~ (present as_ZoomOutToggle out <->
           useViewportMatch large_viewport "medium" = true
           /\ experiment_enabled flag_on
           /\ isDistractionFree plain_props = false
           /\ hasFixedToolbar (mapSelect text_editor) = false).
Proof.
  eexists. split; [reflexivity|].
  intros [_ Back].
  destruct Back as [btn Hbtn].
  - repeat split. exists (Js.boolean true). split; reflexivity.
  - vm_compute in Hbtn. discriminate Hbtn.
Qed.

(** C9, as stated, fails: where the identifier [window] is not bound at
    all, reading it throws, and the render returns nothing. *)
Lemma no_window_render_throws :
  flag_missing no_window
  /\ render_untranslated no_window large_viewport visual_editor plain_props
     = Js.Throw (Js.ReferenceError "window")
  /\ ~ (exists out,
          render_untranslated no_window large_viewport visual_editor
            plain_props = Js.Ok out
          /\ absent as_ZoomOutToggle out).
Proof.
  split; [exact I|]. split; [reflexivity|].
  intros (out & H & _). vm_compute in H. discriminate H.
Qed.

(** ** Instances of the theorems *)

Lemma zoomOut_toggle_present_iff_witness :
  exists out,
    render_untranslated flag_on large_viewport visual_editor plain_props
      = Js.Ok out
    /\ (present as_ZoomOutToggle out <->
          useViewportMatch large_viewport "medium" = true
          /\ experiment_enabled flag_on
          /\ isVisualMode (mapSelect visual_editor) = true
          /\ isDistractionFree plain_props = false
          /\ hasFixedToolbar (mapSelect visual_editor) = false).
Proof.
  eexists. split; [reflexivity|].
  apply (zoomOut_toggle_present_iff untranslated untranslated_x
           flag_on large_viewport visual_editor plain_props).
  reflexivity.
Defined.



Lemma distraction_free_hides_toggles_witness :
  exists out,
    render_untranslated flag_on large_viewport visual_editor
      distraction_free_props = Js.Ok out
    /\ isDistractionFree distraction_free_props = true
    /\ absent as_InserterToggle out
    /\ absent as_ListViewToggle out
    /\ absent as_ZoomOutToggle out.
Proof.
  eexists. split; [reflexivity|]. split; [reflexivity|].
  apply (distraction_free_hides_toggles untranslated untranslated_x
           flag_on large_viewport visual_editor distraction_free_props);
    reflexivity.
Defined.

Lemma viewport_gates_controls_witness :
  window flag_on <> Js.unresolvable
  /\ (exists out,
        render_untranslated flag_on large_viewport
          (registry_with "Tablet" "text" false false true)
          distraction_free_props = Js.Ok out
        /\ present as_UndoItem out
        /\ present as_RedoItem out)
  /\ (exists out,
        render_untranslated flag_on small_viewport visual_editor plain_props
          = Js.Ok out
        /\ absent as_ToolSelectorItem out
        /\ absent as_UndoItem out
        /\ absent as_RedoItem out
        /\ absent as_ListViewToggle out
        /\ absent as_ZoomOutToggle out).
Proof.
  assert (W : window flag_on <> Js.unresolvable)
    by (intros E; discriminate E).
  split; [exact W|]. split.
  - exact (viewport_gates_controls untranslated untranslated_x
             flag_on large_viewport
             (registry_with "Tablet" "text" false false true)
             distraction_free_props W).
  - exact (viewport_gates_controls untranslated untranslated_x
             flag_on small_viewport visual_editor plain_props W).
Defined.

Lemma listView_toggle_disabled_iff_witness :
  exists out btn,
    render_untranslated flag_on large_viewport visual_editor zoomed_out_props
      = Js.Ok out
    /\ control as_ListViewToggle out = Some btn
    /\ (listView_disabled btn = true <->
          isVisualMode (mapSelect visual_editor) = false
          \/ blockEditorMode zoomed_out_props = "zoom-out")
    /\ listView_ariaExpanded btn
       = isListViewOpened (editSiteStore visual_editor).
Proof.
  eexists. eexists. split; [reflexivity|]. split; [reflexivity|].
  exact (listView_toggle_disabled_iff untranslated untranslated_x
           flag_on large_viewport visual_editor zoomed_out_props
           _ _ eq_refl eq_refl).
Defined.


Lemma focus_shortcut_enabled_iff_witness :
  exists out,
    render_untranslated flag_on large_viewport visual_editor plain_props
      = Js.Ok out
    /\ (shouldUseKeyboardFocusShortcut out = true <->
          shouldShowContextualToolbar
            (useShouldContextualToolbarShow large_viewport) = false
          /\ canFocusHiddenToolbar
               (useShouldContextualToolbarShow large_viewport) = false
          /\ fixedToolbarCanBeFocused
               (useShouldContextualToolbarShow large_viewport) = false).
Proof.
  eexists. split; [reflexivity|].
  apply (focus_shortcut_enabled_iff untranslated untranslated_x
           flag_on large_viewport visual_editor plain_props).
  reflexivity.
Defined.

Lemma missing_flag_hides_zoomOut_toggle_witness :
  window window_is_undefined <> Js.unresolvable
  /\ flag_missing window_is_undefined
  /\ exists out out_off,
       render_untranslated window_is_undefined large_viewport visual_editor
         plain_props = Js.Ok out
       /\ absent as_ZoomOutToggle out
       /\ render_untranslated flag_off large_viewport visual_editor
            plain_props = Js.Ok out_off
       /\ rendered out = rendered out_off.
Proof.
  assert (W : window window_is_undefined <> Js.unresolvable)
    by (intros E; discriminate E).
  split; [exact W|]. split; [exact I|].
  apply (missing_flag_hides_zoomOut_toggle untranslated untranslated_x
           window_is_undefined large_viewport visual_editor plain_props W I).
Defined.

Lemma deviceType_not_observed_witness :
  differ_only_in_deviceType
    (registry_with "Mobile" "visual" true false false)
    (registry_with "Desktop" "visual" true false false)
  /\ render_untranslated flag_on large_viewport
       (registry_with "Mobile" "visual" true false false) plain_props
     = render_untranslated flag_on large_viewport
         (registry_with "Desktop" "visual" true false false) plain_props.
Proof.
  assert (D : differ_only_in_deviceType
                (registry_with "Mobile" "visual" true false false)
                (registry_with "Desktop" "visual" true false false))
    by (repeat split).
  split; [exact D|].
  apply (deviceType_not_observed untranslated untranslated_x
           flag_on large_viewport _ _ plain_props D).
Defined.

(** * Further properties of the component *)

Section Coverage.

Context (__ : string -> string) (_x : string -> string -> string).

(** Which items a render shows, in order. *)
Lemma item_names_DocumentTools g hooks reg props out flag :
  DocumentTools __ _x g hooks reg props = Js.Ok out ->
  window__experimentalEnableZoomedOutView g = Js.Ok flag ->
  item_names out =
    (if isDistractionFree props then [] else ["inserter-toggle"])
    ++ (if useViewportMatch hooks "medium"
        then (if hasFixedToolbar (mapSelect reg) then [] else ["tool-selector"])
             ++ ["undo"; "redo"]
             ++ (if isDistractionFree props then [] else ["list-view-toggle"])
             ++ (if Js.truthy flag && isVisualMode (mapSelect reg)
                    && negb (isDistractionFree props)
                    && negb (hasFixedToolbar (mapSelect reg))
                 then ["zoom-out-view-toggle"] else [])
        else []).
Proof.
  intros H F'. unfold item_names.
  render_cases H hooks reg props; injection F' as <-; rewrite ?Et;
    reflexivity.
Qed.

Lemma isVisualMode_false reg :
  isVisualMode (mapSelect reg) = false
  <-> getEditorMode (editSiteStore reg) <> "visual".
Proof. apply String.eqb_neq. Qed.

Lemma isVisualMode_true reg :
  isVisualMode (mapSelect reg) = true
  <-> getEditorMode (editSiteStore reg) = "visual".
Proof. apply String.eqb_eq. Qed.

Lemma render_Ok_window_bound g hooks reg props out :
  DocumentTools __ _x g hooks reg props = Js.Ok out ->
  window g <> Js.unresolvable.
Proof.
  intros H W. rewrite (render_throws __ _x g hooks reg props W) in H.
  discriminate H.
Qed.

(** *** Errors *)

(** X1: a render returns a toolbar exactly when the identifier [window]
    is bound, and the only error it ever throws is the reference error on
    [window]; no other input can make it fail. *)
Theorem render_fails_only_on_unbound_window g hooks reg props :
  ((exists out, DocumentTools __ _x g hooks reg props = Js.Ok out)
   <-> window g <> Js.unresolvable)
  /\ (forall e, DocumentTools __ _x g hooks reg props = Js.Throw e ->
               e = Js.ReferenceError "window").
Proof.
  split; [split|].
  - intros [out H] W. rewrite (render_throws __ _x g hooks reg props W) in H.
    discriminate H.
  - intros W.
    apply (render_returns __ _x g hooks reg props _
             (flag_of_bound_window g W)).
  - intros e H. destruct (window g) eqn:W.
    + rewrite (render_throws __ _x g hooks reg props W) in H.
      injection H as <-. reflexivity.
    + destruct (render_returns __ _x g hooks reg props _
                  (flag_of_bound_window g ltac:(rewrite W; discriminate)))
        as [out H']. congruence.
    + destruct (render_returns __ _x g hooks reg props _
                  (flag_of_bound_window g ltac:(rewrite W; discriminate)))
        as [out H']. congruence.
Qed.

(** *** The items one by one *)

(** X2: the inserter toggle is rendered exactly when distraction-free
    mode is off, on every viewport; it is disabled exactly outside visual
    mode, and both its pressed state and [aria-expanded] are the store's
    inserter-open flag. *)
Theorem inserter_toggle_state g hooks reg props out :
  DocumentTools __ _x g hooks reg props = Js.Ok out ->
  (present as_InserterToggle out <-> isDistractionFree props = false)
  /\ forall btn, control as_InserterToggle out = Some btn ->
       (inserter_disabled btn = true <->
          getEditorMode (editSiteStore reg) <> "visual")
       /\ inserter_isPressed btn = isInserterOpened (editSiteStore reg)
       /\ inserter_ariaExpanded btn = isInserterOpened (editSiteStore reg).
Proof.
  intros H. unfold present. rewrite (control_inserterToggle __ _x _ _ _ _ _ H).
  destruct (isDistractionFree props); cbn [negb].
  - split; [split; [intros [? ?]|]; discriminate|]. discriminate.
  - split; [split; [reflexivity | eexists; reflexivity]|].
    intros btn [= <-]. cbn [inserter_disabled inserter_isPressed
                              inserter_ariaExpanded].
    rewrite negb_true_iff, String.eqb_neq. repeat split; auto.
Qed.

(** X3: the inserter toggle's label.  With icon labels it is the short
    label, "Add" while the inserter is closed and "Close" while it is
    open; without them it is the long label, whatever the inserter's
    state; the tooltip is shown exactly when icon labels are off. *)
Theorem inserter_toggle_label g hooks reg props out btn :
  DocumentTools __ _x g hooks reg props = Js.Ok out ->
  control as_InserterToggle out = Some btn ->
  inserter_label btn =
    (if showIconLabels props
     then __ (if isInserterOpened (editSiteStore reg) then "Close" else "Add")
     else _x "Toggle block inserter" "Generic label for block inserter button")
  /\ inserter_showTooltip btn = negb (showIconLabels props).
Proof.
  intros H C. rewrite (control_inserterToggle __ _x _ _ _ _ _ H) in C.
  destruct (negb _); [|discriminate C]. injection C as <-. cbn.
  destruct (showIconLabels props), (isInserterOpened (editSiteStore reg));
    split; reflexivity.
Qed.

(** X4: the tool selector is rendered exactly when the viewport is large
    and the fixed-toolbar preference is off; distraction-free mode does
    not hide it.  It is disabled exactly outside visual mode. *)
Theorem toolSelector_state g hooks reg props out :
  DocumentTools __ _x g hooks reg props = Js.Ok out ->
  (present as_ToolSelectorItem out <->
     useViewportMatch hooks "medium" = true
     /\ getPreference reg "core/edit-site" "fixedToolbar" = false)
  /\ forall item, control as_ToolSelectorItem out = Some item ->
       (toolSelector_disabled item = true <->
          getEditorMode (editSiteStore reg) <> "visual").
Proof.
  intros H. unfold present. rewrite (control_toolSelector __ _x _ _ _ _ _ H).
  change (hasFixedToolbar (mapSelect reg))
    with (getPreference reg "core/edit-site" "fixedToolbar").
  destruct (useViewportMatch hooks "medium"),
    (getPreference reg "core/edit-site" "fixedToolbar"); cbn [negb andb];
    (split; [split; [intros [? ?]; try discriminate; auto
                    | intros [? ?]; try discriminate; eexists; reflexivity]|]);
    intros item [= <-]; cbn [toolSelector_disabled].
  rewrite negb_true_iff, String.eqb_neq. reflexivity.
Qed.

(** X5: the list-view toggle is rendered exactly when the viewport is
    large and distraction-free mode is off; the fixed-toolbar preference
    and the editor mode do not hide it.  Its pressed state is the store's
    list-view-open flag, its shortcut the representation the shortcut
    store gives for "core/edit-site/toggle-list-view", and its ref the
    callback passed in [setListViewToggleElement]. *)
Theorem listView_toggle_state g hooks reg props out :
  DocumentTools __ _x g hooks reg props = Js.Ok out ->
  (present as_ListViewToggle out <->
     useViewportMatch hooks "medium" = true
     /\ isDistractionFree props = false)
  /\ forall btn, control as_ListViewToggle out = Some btn ->
       listView_isPressed btn = isListViewOpened (editSiteStore reg)
       /\ listView_shortcut btn =
            getShortcutRepresentation reg "core/edit-site/toggle-list-view"
       /\ listView_ref btn = callbackRef (setListViewToggleElement props).
Proof.
  intros H. unfold present. rewrite (control_listViewToggle __ _x _ _ _ _ _ H).
  destruct (useViewportMatch hooks "medium"), (isDistractionFree props); cbn;
    (split; [split; [intros [? ?]; try discriminate; auto
                    | intros [? ?]; try discriminate; eexists; reflexivity]|]);
    intros btn [= <-]; cbn.
  repeat split.
Qed.

(** *** The toolbar as a whole *)

Lemma all_item_names_NoDup : NoDup all_item_names.
Proof. apply (bool_decide_unpack _). vm_compute. reflexivity. Qed.

(** X6: the rendered items always come in the order of the source
    (inserter toggle, tool selector, undo, redo, list-view toggle,
    zoom-out toggle), and no item is rendered twice. *)
Theorem items_in_document_order g hooks reg props out :
  DocumentTools __ _x g hooks reg props = Js.Ok out ->
  sublist (item_names out) all_item_names /\ NoDup (item_names out).
Proof.
  intros H. destruct (render_read_flag __ _x _ _ _ _ _ H) as [flag F].
  assert (S : sublist (item_names out) all_item_names).
  { rewrite (item_names_DocumentTools _ _ _ _ _ _ H F).
    unfold all_item_names.
    destruct (isDistractionFree props), (useViewportMatch hooks "medium"),
      (hasFixedToolbar (mapSelect reg)), (Js.truthy flag),
      (isVisualMode (mapSelect reg)); cbn; repeat constructor. }
  split; [exact S|].
  eapply sublist_NoDup; [exact all_item_names_NoDup | exact S].
Qed.

(** X7: the zoom-out toggle never stands alone: whenever it is rendered,
    all six items are, and the inserter toggle and the tool selector are
    enabled. *)
Theorem zoomOut_toggle_implies_full_toolbar g hooks reg props out :
  DocumentTools __ _x g hooks reg props = Js.Ok out ->
  present as_ZoomOutToggle out ->
  item_names out = all_item_names
  /\ exists btn item,
       control as_InserterToggle out = Some btn
       /\ inserter_disabled btn = false
       /\ control as_ToolSelectorItem out = Some item
       /\ toolSelector_disabled item = false.
Proof.
  intros H P. destruct (render_read_flag __ _x _ _ _ _ _ H) as [flag F].
  unfold present in P.
  rewrite (control_zoomOutToggle __ _x _ _ _ _ _ _ H F) in P.
  rewrite (item_names_DocumentTools _ _ _ _ _ _ H F),
    (control_inserterToggle __ _x _ _ _ _ _ H),
    (control_toolSelector __ _x _ _ _ _ _ H).
  destruct (isDistractionFree props), (useViewportMatch hooks "medium"),
    (hasFixedToolbar (mapSelect reg)), (Js.truthy flag),
    (isVisualMode (mapSelect reg)); cbn in P |- *;
    try (destruct P as [? P]; discriminate P).
  split; [reflexivity|]. eexists _, _. repeat split.
Qed.

(** X8: the toolbar is empty exactly in distraction-free mode on a
    viewport that is not large. *)
Theorem toolbar_empty_iff g hooks reg props out :
  DocumentTools __ _x g hooks reg props = Js.Ok out ->
  rendered out = [] <->
    isDistractionFree props = true /\ useViewportMatch hooks "medium" = false.
Proof.
  intros H. destruct (render_read_flag __ _x _ _ _ _ _ H) as [flag F].
  assert (E : rendered out = [] <-> item_names out = []).
  { unfold item_names. destruct (rendered out); cbn; split; congruence. }
  rewrite E, (item_names_DocumentTools _ _ _ _ _ _ H F).
  destruct (isDistractionFree props), (useViewportMatch hooks "medium"),
    (hasFixedToolbar (mapSelect reg)); cbn; split;
    try discriminate; try (intros [? ?]; discriminate); auto.
Qed.

(** X9: which items are rendered is decided by five facts only:
    distraction-free mode, the large-viewport match, the fixed-toolbar
    preference, whether the editor is in visual mode and whether the
    global flag is truthy.  Two renders that agree on them show the same
    items, whatever their block-editor modes, icon-label settings, open
    flags, shortcuts and contextual-toolbar capabilities are. *)
Theorem items_decided_by_five_facts
    g1 g2 hooks1 hooks2 reg1 reg2 props1 props2 out1 out2 :
  DocumentTools __ _x g1 hooks1 reg1 props1 = Js.Ok out1 ->
  DocumentTools __ _x g2 hooks2 reg2 props2 = Js.Ok out2 ->
  isDistractionFree props1 = isDistractionFree props2 ->
  useViewportMatch hooks1 "medium" = useViewportMatch hooks2 "medium" ->
  getPreference reg1 "core/edit-site" "fixedToolbar"
    = getPreference reg2 "core/edit-site" "fixedToolbar" ->
  (getEditorMode (editSiteStore reg1) = "visual"
   <-> getEditorMode (editSiteStore reg2) = "visual") ->
  Js.truthy (Js.optional_get (window g1) flag_key)
    = Js.truthy (Js.optional_get (window g2) flag_key) ->
  item_names out1 = item_names out2.
Proof.
  intros H1 H2 D L P V T.
  pose proof (render_Ok_window_bound _ _ _ _ _ H1) as W1.
  pose proof (render_Ok_window_bound _ _ _ _ _ H2) as W2.
  rewrite (item_names_DocumentTools _ _ _ _ _ _ H1
             (flag_of_bound_window g1 W1)),
    (item_names_DocumentTools _ _ _ _ _ _ H2 (flag_of_bound_window g2 W2)).
  change (hasFixedToolbar (mapSelect reg1))
    with (getPreference reg1 "core/edit-site" "fixedToolbar").
  change (hasFixedToolbar (mapSelect reg2))
    with (getPreference reg2 "core/edit-site" "fixedToolbar").
  assert (V' : isVisualMode (mapSelect reg1) = isVisualMode (mapSelect reg2)).
  { destruct (isVisualMode (mapSelect reg2)) eqn:E2.
    - apply isVisualMode_true, V, isVisualMode_true, E2.
    - apply isVisualMode_false. intros E1.
      apply (proj1 (isVisualMode_false reg2) E2), V, E1. }
  rewrite D, L, P, V', T. reflexivity.
Qed.

(** X10: which rendered items are enabled.  In visual mode every rendered
    item is, except the list-view toggle while the block editor is zoomed
    out; outside visual mode only undo and redo are left without a
    [disabled] prop. *)
Theorem enabled_items g hooks reg props out :
  DocumentTools __ _x g hooks reg props = Js.Ok out ->
  enabled_item_names out =
    if String.eqb (getEditorMode (editSiteStore reg)) "visual"
    then (if String.eqb (blockEditorMode props) "zoom-out"
          then List.filter
                 (fun name => negb (String.eqb name "list-view-toggle"))
                 (item_names out)
          else item_names out)
    else (if useViewportMatch hooks "medium" then ["undo"; "redo"] else []).
Proof.
  intros H. unfold enabled_item_names, item_names.
  render_cases H hooks reg props;
    destruct (bm =? "zoom-out")%string; reflexivity.
Qed.

(** X11: the icon-labels preference styles every rendered item the same
    way: tooltips are shown exactly when icon labels are off; the tool
    selector, undo, redo and the list-view toggle get the "tertiary"
    variant exactly when they are on; the inserter toggle stays
    "primary". *)
Theorem icon_labels_style_every_item g hooks reg props out :
  DocumentTools __ _x g hooks reg props = Js.Ok out ->
  Forall (styled_for (showIconLabels props)) (rendered out).
Proof.
  intros H. render_cases H hooks reg props;
    repeat constructor.
Qed.

(** *** What a render reads *)

(** X12: a render reads the viewport only at the "medium" breakpoint, the
    preferences only at "fixedToolbar" of "core/edit-site", the shortcuts
    only at "core/edit-site/toggle-list-view", and the editor mode only to
    compare it with "visual": hook results and registries that agree
    there give the same result. *)
Theorem render_same_reads g hooks1 hooks2 reg1 reg2 props :
  same_reads hooks1 hooks2 reg1 reg2 ->
  DocumentTools __ _x g hooks1 reg1 props
  = DocumentTools __ _x g hooks2 reg2 props.
Proof.
  destruct hooks1 as [vm1 c1], hooks2 as [vm2 c2],
    reg1 as [[d1 io1 lo1 m1] sh1 pref1], reg2 as [[d2 io2 lo2 m2] sh2 pref2].
  unfold same_reads. cbn. intros (L & -> & -> & -> & V & S & P).
  unfold DocumentTools, mapSelect. cbn.
  change editSiteStore_name with "core/edit-site".
  rewrite L, S, P.
  assert (E : (m1 =? "visual")%string = (m2 =? "visual")%string).
  { destruct (String.eqb_spec m2 "visual") as [E2|N2].
    - apply String.eqb_eq, V, E2.
    - apply String.eqb_neq. intros E1. apply N2, V, E1. }
  rewrite E. reflexivity.
Qed.

(** X13: a render reads [window] only at the experiment flag and the
    block-editor mode only to compare it with "zoom-out": a [window]
    without the property, a [window] holding undefined and one holding
    the property set to undefined are all alike, and so are any two modes
    other than "zoom-out". *)
Theorem render_same_inputs g1 g2 hooks reg props1 props2 :
  same_inputs g1 g2 props1 props2 ->
  DocumentTools __ _x g1 hooks reg props1
  = DocumentTools __ _x g2 hooks reg props2.
Proof.
  destruct props1 as [bm1 df1 il1 r1 tt1 tv1],
    props2 as [bm2 df2 il2 r2 tt2 tv2].
  unfold same_inputs. cbn. intros (W & F & Z & -> & -> & -> & -> & ->).
  assert (E : (bm1 =? "zoom-out")%string = (bm2 =? "zoom-out")%string).
  { destruct (String.eqb_spec bm2 "zoom-out") as [E2|N2].
    - apply String.eqb_eq, Z, E2.
    - apply String.eqb_neq. intros E1. apply N2, Z, E1. }
  assert (R : window__experimentalEnableZoomedOutView g1
              = window__experimentalEnableZoomedOutView g2).
  { destruct (window g1) eqn:W1.
    - rewrite (flag_of_unbound_window g1 W1),
        (flag_of_unbound_window g2 (proj1 W eq_refl)). reflexivity.
    - assert (W2 : window g2 <> Js.unresolvable)
        by (intros U; apply W in U; discriminate U).
      rewrite (flag_of_bound_window g1), (flag_of_bound_window g2 W2)
        by (rewrite W1; discriminate).
      rewrite W1. f_equal. exact F.
    - assert (W2 : window g2 <> Js.unresolvable)
        by (intros U; apply W in U; discriminate U).
      rewrite (flag_of_bound_window g1), (flag_of_bound_window g2 W2)
        by (rewrite W1; discriminate).
      rewrite W1. f_equal. exact F. }
  unfold DocumentTools. rewrite R. cbn. rewrite E. reflexivity.
Qed.

(** *** What the handlers of a render can do *)

(** X14: whatever is clicked or pressed on the toolbar, the only actions
    ever dispatched are the negation of the inserter-open flag, the
    negation of the list-view-open flag, the preview device type
    "Desktop" and the block-editor modes "edit" and "zoom-out". *)
Theorem handlers_dispatch_expected_actions g hooks reg props out :
  DocumentTools __ _x g hooks reg props = Js.Ok out ->
  Forall (expected_action reg) (dispatched (all_effects out)).
Proof.
  intros H. unfold all_effects.
  render_cases H hooks reg props;
    destruct io, (bm =? "zoom-out")%string; cbn;
    repeat first [apply Forall_nil_2 | apply Forall_cons_2]; cbn; auto.
Qed.

(** X15: no handler moves keyboard focus, except the click on the
    inserter toggle while the inserter is open, which moves it once. *)
Theorem focus_moves_of_render g hooks reg props out :
  DocumentTools __ _x g hooks reg props = Js.Ok out ->
  focus_moves (all_effects out) =
    if negb (isDistractionFree props) && isInserterOpened (editSiteStore reg)
    then 1 else 0.
Proof.
  intros H. unfold all_effects.
  render_cases H hooks reg props; destruct io; reflexivity.
Qed.

(** X16: on every rendered toggle the click handler and the pressed state
    agree: the inserter and list-view clicks dispatch the negation of the
    pressed state shown, and the zoom-out click asks for "edit" when the
    toggle is pressed and for "zoom-out" when it is not. *)
Theorem clicks_match_pressed_state g hooks reg props out :
  DocumentTools __ _x g hooks reg props = Js.Ok out ->
  Forall click_matches_pressed (rendered out).
Proof.
  intros H.
  render_cases H hooks reg props;
    destruct io, (bm =? "zoom-out")%string; repeat constructor.
Qed.

(** X17: two zoom-out clicks in a row, the second one seeing the mode the
    first one dispatched, come back to the starting block-editor mode
    exactly when that mode is "edit" or "zoom-out"; from any other mode
    they end in "edit". *)
Theorem zoomOut_two_clicks (mode mode1 mode2 : string) :
  dispatched_editorMode (zoomOut_onClick (String.eqb mode "zoom-out"))
    = Some mode1 ->
  dispatched_editorMode (zoomOut_onClick (String.eqb mode1 "zoom-out"))
    = Some mode2 ->
  (mode2 = mode <-> mode = "edit" \/ mode = "zoom-out")
  /\ (mode <> "zoom-out" -> mode2 = "edit").
Proof.
  destruct (String.eqb_spec mode "zoom-out") as [->|N]; cbn.
  - intros [= <-]. cbn. intros [= <-]. split; [|congruence].
    split; auto.
  - intros [= <-]. cbn. intros [= <-]. split; [|reflexivity].
    split; [intros <-; auto | intros [->| ->]; congruence].
Qed.

(** X18: whenever the zoom-out toggle is rendered, the list-view toggle
    is rendered too, and it is disabled exactly when the zoom-out toggle
    is pressed. *)
Theorem zoomOut_pressed_disables_listView g hooks reg props out btn :
  DocumentTools __ _x g hooks reg props = Js.Ok out ->
  control as_ZoomOutToggle out = Some btn ->
  exists lv,
    control as_ListViewToggle out = Some lv
    /\ listView_disabled lv = zoomOut_isPressed btn.
Proof.
  intros H C. destruct (render_read_flag __ _x _ _ _ _ _ H) as [flag F].
  rewrite (control_zoomOutToggle __ _x _ _ _ _ _ _ H F) in C.
  rewrite (control_listViewToggle __ _x _ _ _ _ _ H).
  destruct (useViewportMatch hooks "medium"), (Js.truthy flag),
    (isVisualMode (mapSelect reg)), (isDistractionFree props),
    (hasFixedToolbar (mapSelect reg)); cbn in C |- *; try discriminate C.
  injection C as <-. eexists. split; reflexivity.
Qed.

(** *** Falsy values in child position *)

(** X19: on a large viewport a falsy experiment flag is itself what the
    guard of the zoom-out toggle leaves as the last child of the fragment:
    [undefined], [null], [false], but also [0] or the empty string when
    the flag holds one of those. *)
Theorem falsy_flag_stays_in_tree g hooks reg props out flag :
  DocumentTools __ _x g hooks reg props = Js.Ok out ->
  window__experimentalEnableZoomedOutView g = Js.Ok flag ->
  useViewportMatch hooks "medium" = true ->
  Js.truthy flag = false ->
  exists first c1 c2 c3 c4,
    children out = [first; NFragment [c1; c2; c3; c4; NValue flag]].
Proof.
  intros H F' L T. revert L.
  render_cases H hooks reg props; injection F' as <-;
    try congruence; intros L; try discriminate L;
    eexists _, _, _, _, _; reflexivity.
Qed.

End Coverage.

(** ** Instances of the further properties *)

Lemma inserter_toggle_state_witness :
  exists out,
    render_untranslated flag_on small_viewport text_editor plain_props
      = Js.Ok out
    /\ (present as_InserterToggle out <-> isDistractionFree plain_props = false)
    /\ forall btn, control as_InserterToggle out = Some btn ->
         (inserter_disabled btn = true <->
            getEditorMode (editSiteStore text_editor) <> "visual")
         /\ inserter_isPressed btn = isInserterOpened (editSiteStore text_editor)
         /\ inserter_ariaExpanded btn
            = isInserterOpened (editSiteStore text_editor).
Proof.
  eexists. split; [reflexivity|].
  exact (inserter_toggle_state untranslated untranslated_x
           flag_on small_viewport text_editor plain_props _ eq_refl).
Defined.

Lemma inserter_toggle_label_witness :
  exists out btn,
    render_untranslated flag_on large_viewport visual_editor icon_label_props
      = Js.Ok out
    /\ control as_InserterToggle out = Some btn
    /\ inserter_label btn = "Close"
    /\ inserter_showTooltip btn = false.
Proof.
  eexists. eexists. split; [reflexivity|]. split; [reflexivity|].
  exact (inserter_toggle_label untranslated untranslated_x
           flag_on large_viewport visual_editor icon_label_props
           _ _ eq_refl eq_refl).
Defined.

Lemma toolSelector_state_witness :
  exists out,
    render_untranslated flag_on large_viewport visual_editor
      distraction_free_props = Js.Ok out
    /\ (present as_ToolSelectorItem out <->
          useViewportMatch large_viewport "medium" = true
          /\ getPreference visual_editor "core/edit-site" "fixedToolbar" = false)
    /\ forall item, control as_ToolSelectorItem out = Some item ->
         (toolSelector_disabled item = true <->
            getEditorMode (editSiteStore visual_editor) <> "visual").
Proof.
  eexists. split; [reflexivity|].
  exact (toolSelector_state untranslated untranslated_x
           flag_on large_viewport visual_editor distraction_free_props
           _ eq_refl).
Defined.

Lemma listView_toggle_state_witness :
  exists out,
    render_untranslated flag_on large_viewport visual_editor plain_props
      = Js.Ok out
    /\ (present as_ListViewToggle out <->
          useViewportMatch large_viewport "medium" = true
          /\ isDistractionFree plain_props = false)
    /\ forall btn, control as_ListViewToggle out = Some btn ->
         listView_isPressed btn = isListViewOpened (editSiteStore visual_editor)
         /\ listView_shortcut btn =
              getShortcutRepresentation visual_editor
                "core/edit-site/toggle-list-view"
         /\ listView_ref btn
            = callbackRef (setListViewToggleElement plain_props).
Proof.
  eexists. split; [reflexivity|].
  exact (listView_toggle_state untranslated untranslated_x
           flag_on large_viewport visual_editor plain_props _ eq_refl).
Defined.

Lemma items_in_document_order_witness :
  exists out,
    render_untranslated flag_on large_viewport text_editor
      distraction_free_props = Js.Ok out
    /\ sublist (item_names out) all_item_names
    /\ NoDup (item_names out).
Proof.
  eexists. split; [reflexivity|].
  exact (items_in_document_order untranslated untranslated_x
           flag_on large_viewport text_editor distraction_free_props
           _ eq_refl).
Defined.

Lemma zoomOut_toggle_implies_full_toolbar_witness :
  exists out,
    render_untranslated flag_one large_viewport visual_editor plain_props
      = Js.Ok out
    /\ present as_ZoomOutToggle out
    /\ item_names out = all_item_names.
Proof.
  eexists. split; [reflexivity|].
  match goal with
  | |- present ?kind ?t /\ _ =>
      assert (P : present kind t) by (eexists; reflexivity)
  end.
  split; [exact P|].
  exact (proj1 (zoomOut_toggle_implies_full_toolbar untranslated untranslated_x
                  flag_one large_viewport visual_editor plain_props
                  _ eq_refl P)).
Defined.

Lemma toolbar_empty_iff_witness :
  exists out,
    render_untranslated flag_on small_viewport visual_editor
      distraction_free_props = Js.Ok out
    /\ (rendered out = [] <->
         isDistractionFree distraction_free_props = true
         /\ useViewportMatch small_viewport "medium" = false).
Proof.
  eexists. split; [reflexivity|].
  exact (toolbar_empty_iff untranslated untranslated_x
           flag_on small_viewport visual_editor distraction_free_props
           _ eq_refl).
Defined.

Lemma items_decided_by_five_facts_witness :
  exists out1 out2,
    render_untranslated flag_on large_viewport visual_editor plain_props
      = Js.Ok out1
    /\ render_untranslated flag_one medium_only
         (registry_with "Desktop" "visual" false false false)
         (props_with "zoom-out" false true) = Js.Ok out2
    /\ item_names out1 = item_names out2.
Proof.
  eexists. eexists. split; [reflexivity|]. split; [reflexivity|].
  apply (items_decided_by_five_facts untranslated untranslated_x
           flag_on flag_one large_viewport medium_only visual_editor
           (registry_with "Desktop" "visual" false false false)
           plain_props (props_with "zoom-out" false true)
           _ _ eq_refl eq_refl);
    reflexivity.
Defined.

Lemma enabled_items_witness :
  exists out,
    render_untranslated flag_on large_viewport visual_editor zoomed_out_props
      = Js.Ok out
    /\ enabled_item_names out =
         ["inserter-toggle"; "tool-selector"; "undo"; "redo";
          "zoom-out-view-toggle"].
Proof.
  eexists. split; [reflexivity|].
  exact (enabled_items untranslated untranslated_x
           flag_on large_viewport visual_editor zoomed_out_props _ eq_refl).
Defined.

Lemma icon_labels_style_every_item_witness :
  exists out,
    render_untranslated flag_on large_viewport visual_editor icon_label_props
      = Js.Ok out
    /\ Forall (styled_for (showIconLabels icon_label_props)) (rendered out).
Proof.
  eexists. split; [reflexivity|].
  exact (icon_labels_style_every_item untranslated untranslated_x
           flag_on large_viewport visual_editor icon_label_props _ eq_refl).
Defined.

Lemma render_same_reads_witness :
  same_reads large_viewport medium_only text_editor code_editor
  /\ render_untranslated flag_on large_viewport text_editor plain_props
     = render_untranslated flag_on medium_only code_editor plain_props.
Proof.
  assert (S : same_reads large_viewport medium_only text_editor code_editor).
  { repeat split; discriminate. }
  split; [exact S|].
  exact (render_same_reads untranslated untranslated_x
           flag_on large_viewport medium_only text_editor code_editor
           plain_props S).
Defined.

Lemma render_same_inputs_witness :
  same_inputs window_is_undefined flag_undefined plain_props navigation_props
  /\ render_untranslated window_is_undefined large_viewport visual_editor
       plain_props
     = render_untranslated flag_undefined large_viewport visual_editor
         navigation_props.
Proof.
  assert (S : same_inputs window_is_undefined flag_undefined
                plain_props navigation_props).
  { repeat split; discriminate. }
  split; [exact S|].
  exact (render_same_inputs untranslated untranslated_x
           window_is_undefined flag_undefined large_viewport visual_editor
           plain_props navigation_props S).
Defined.

Lemma handlers_dispatch_expected_actions_witness :
  exists out,
    render_untranslated flag_on large_viewport visual_editor zoomed_out_props
      = Js.Ok out
    /\ Forall (expected_action visual_editor) (dispatched (all_effects out)).
Proof.
  eexists. split; [reflexivity|].
  exact (handlers_dispatch_expected_actions untranslated untranslated_x
           flag_on large_viewport visual_editor zoomed_out_props _ eq_refl).
Defined.

Lemma focus_moves_of_render_witness :
  exists out,
    render_untranslated flag_on large_viewport visual_editor plain_props
      = Js.Ok out
    /\ focus_moves (all_effects out) = 1.
Proof.
  eexists. split; [reflexivity|].
  exact (focus_moves_of_render untranslated untranslated_x
           flag_on large_viewport visual_editor plain_props _ eq_refl).
Defined.

Lemma clicks_match_pressed_state_witness :
  exists out,
    render_untranslated flag_on large_viewport visual_editor zoomed_out_props
      = Js.Ok out
    /\ Forall click_matches_pressed (rendered out).
Proof.
  eexists. split; [reflexivity|].
  exact (clicks_match_pressed_state untranslated untranslated_x
           flag_on large_viewport visual_editor zoomed_out_props _ eq_refl).
Defined.

Lemma zoomOut_two_clicks_witness :
  dispatched_editorMode (zoomOut_onClick (String.eqb "navigation" "zoom-out"))
    = Some "zoom-out"
  /\ dispatched_editorMode (zoomOut_onClick (String.eqb "zoom-out" "zoom-out"))
     = Some "edit"
  /\ ("edit" = "navigation" <-> "navigation" = "edit" \/ "navigation" = "zoom-out")
  /\ ("navigation" <> "zoom-out" -> "edit" = "edit").
Proof.
  split; [reflexivity|]. split; [reflexivity|].
  exact (zoomOut_two_clicks "navigation" "zoom-out" "edit" eq_refl eq_refl).
Defined.

Lemma zoomOut_pressed_disables_listView_witness :
  exists out btn lv,
    render_untranslated flag_on large_viewport visual_editor zoomed_out_props
      = Js.Ok out
    /\ control as_ZoomOutToggle out = Some btn
    /\ control as_ListViewToggle out = Some lv
    /\ listView_disabled lv = true
    /\ zoomOut_isPressed btn = true.
Proof.
  destruct (zoomOut_pressed_disables_listView untranslated untranslated_x
              flag_on large_viewport visual_editor zoomed_out_props
              _ _ eq_refl eq_refl) as (lv & C & D).
  eexists. eexists. exists lv.
  split; [reflexivity|]. split; [reflexivity|]. split; [exact C|].
  split; [exact D | reflexivity].
Defined.

Lemma falsy_flag_stays_in_tree_witness :
  exists out first c1 c2 c3 c4,
    render_untranslated flag_zero large_viewport visual_editor plain_props
      = Js.Ok out
    /\ window__experimentalEnableZoomedOutView flag_zero
       = Js.Ok (Js.number 0)
    /\ useViewportMatch large_viewport "medium" = true
    /\ Js.truthy (Js.number 0) = false
    /\ children out = [first; NFragment [c1; c2; c3; c4; NValue (Js.number 0)]].
Proof.
  destruct (falsy_flag_stays_in_tree untranslated untranslated_x
              flag_zero large_viewport visual_editor plain_props
              _ (Js.number 0) eq_refl eq_refl eq_refl eq_refl)
    as (first & c1 & c2 & c3 & c4 & E).
  eexists. exists first, c1, c2, c3, c4.
  split; [reflexivity|]. repeat (split; [reflexivity|]). exact E.
Defined.
